(** * github-issue-finder: the two command-line scripts

  A shallow embedding of [src/filter_and_assign.py] and
  [src/assign_best_issues.py].

  Python [str] values are Rocq strings read as sequences of code points
  (the development covers code points below 256).  A Python exception is
  an explicit [Raise] outcome; text written by [print] or
  [sys.stderr.write] is collected in explicit output streams. *)

From Stdlib Require Import Ascii String DecimalString List Bool Arith ZArith QArith Lia.
Import ListNotations.
Local Open Scope string_scope.
Local Open Scope nat_scope.

(** ** The part of the Python runtime the scripts rely on *)

Module Py.

Inductive exn : Set := TypeError.

Inductive result (A : Type) : Type :=
| Ok (a : A)
| Raise (e : exn).
Arguments Ok {A} a.
Arguments Raise {A} e.

Definition bind {A B : Type} (m : result A) (k : A -> result B) : result B :=
  match m with
  | Ok a => k a
  | Raise e => Raise e
  end.

(** The two kinds of runtime value met by the comparison on line 85. *)
Inductive value : Type :=
| VStr (s : string)
| VFloat (q : Q).

(** [a < b]: ordered within one type, [TypeError] between [str] and
    [float] (Python 3 has no cross-type ordering). *)
Definition lt (a b : value) : result bool :=
  match a, b with
  | VStr s, VStr t => Ok (String.ltb s t)
  | VFloat p, VFloat q => Ok (negb (Qle_bool q p))
  | VStr _, VFloat _ => Raise TypeError
  | VFloat _, VStr _ => Raise TypeError
  end.

Definition nl : string := String (ascii_of_nat 10) "".

(** [str.isspace] on one code point. *)
Definition isspace (c : ascii) : bool :=
  let n := nat_of_ascii c in
  ((9 <=? n) && (n <=? 13)) || ((28 <=? n) && (n <=? 32))
  || (n =? 133) || (n =? 160).

Definition is_empty (s : string) : bool :=
  match s with
  | EmptyString => true
  | String _ _ => false
  end.

Fixpoint lstrip (s : string) : string :=
  match s with
  | EmptyString => EmptyString
  | String c s' => if isspace c then lstrip s' else s
  end.

Fixpoint rstrip (s : string) : string :=
  match s with
  | EmptyString => EmptyString
  | String c s' =>
      let r := rstrip s' in
      if is_empty r && isspace c then EmptyString else String c r
  end.

(** [s.strip()] *)
Definition strip (s : string) : string := rstrip (lstrip s).

Definition lower_char (c : ascii) : ascii :=
  let n := nat_of_ascii c in
  if ((65 <=? n) && (n <=? 90))
     || ((192 <=? n) && (n <=? 222) && negb (n =? 215))
  then ascii_of_nat (n + 32) else c.

(** [s.lower()] *)
Fixpoint lower (s : string) : string :=
  match s with
  | EmptyString => EmptyString
  | String c s' => String (lower_char c) (lower s')
  end.

(** [s[:n]] for a non-negative [n]. *)
Fixpoint take (n : nat) (s : string) : string :=
  match n, s with
  | S n', String c s' => String c (take n' s')
  | _, _ => EmptyString
  end.

Fixpoint startswith (p s : string) : bool :=
  match p, s with
  | EmptyString, _ => true
  | String a p', String b s' => Ascii.eqb a b && startswith p' s'
  | String _ _, EmptyString => false
  end.

(** [needle in hay] *)
Fixpoint contains (needle hay : string) : bool :=
  startswith needle hay
  || match hay with
     | EmptyString => false
     | String _ hay' => contains needle hay'
     end.

(** [s.split(sep)] for a one-character separator: never empty, one more
    field than there are separators. *)
Fixpoint split (sep : ascii) (s : string) : list string :=
  match s with
  | EmptyString => [EmptyString]
  | String c s' =>
      if Ascii.eqb c sep then EmptyString :: split sep s'
      else match split sep s' with
           | [] => [String c EmptyString]
           | f :: fs => String c f :: fs
           end
  end.

(** [sep.join(parts)] *)
Fixpoint join (sep : string) (parts : list string) : string :=
  match parts with
  | [] => EmptyString
  | [p] => p
  | p :: ps => p ++ sep ++ join sep ps
  end.

(** [c * n] *)
Fixpoint repeat_char (c : ascii) (n : nat) : string :=
  match n with
  | O => EmptyString
  | S n' => String c (repeat_char c n')
  end.

(** The format spec [{s:<w}]: pad on the right up to width [w], never
    truncate. *)
Definition ljust (w : nat) (s : string) : string :=
  s ++ repeat_char " "%char (w - String.length s).

(** Index normalisation of a slice bound against a sequence of length
    [n]: negative bounds count from the end, everything is clamped. *)
Definition clamp (n : nat) (i : Z) : nat :=
  if (i <? 0)%Z then Z.to_nat (Z.max 0 (i + Z.of_nat n))
  else Nat.min (Z.to_nat i) n.

(** [l[start:stop]] *)
Definition slice {A : Type} (start stop : Z) (l : list A) : list A :=
  let n := List.length l in
  let lo := clamp n start in
  let hi := clamp n stop in
  firstn (hi - lo) (skipn lo l).

(** [l[:n]] *)
Definition slice_to {A : Type} (n : nat) (l : list A) : list A := firstn n l.

End Py.

(** ** [textwrap.dedent], as used by the disabled-assignment notice *)

Module Textwrap.
Import Py.

Definition is_blank_char (c : ascii) : bool :=
  Ascii.eqb c " "%char || Ascii.eqb c (ascii_of_nat 9).

Fixpoint all_blank (s : string) : bool :=
  match s with
  | EmptyString => true
  | String c s' => is_blank_char c && all_blank s'
  end.

(** The run of spaces and tabs a line starts with. *)
Fixpoint indent_of (s : string) : string :=
  match s with
  | EmptyString => EmptyString
  | String c s' => if is_blank_char c then String c (indent_of s') else EmptyString
  end.

Fixpoint common_prefix (a b : string) : string :=
  match a, b with
  | String x a', String y b' =>
      if Ascii.eqb x y then String x (common_prefix a' b') else EmptyString
  | _, _ => EmptyString
  end.

(** [margin]: [None] until a line with text is seen, then the longest
    indentation shared by all such lines. *)
Fixpoint margin_of (ls : list string) (margin : option string) : option string :=
  match ls with
  | [] => margin
  | l :: ls' =>
      if all_blank l then margin_of ls' margin
      else
        let indent := indent_of l in
        margin_of ls' (match margin with
                       | None => Some indent
                       | Some m => Some (common_prefix m indent)
                       end)
  end.

Fixpoint drop_prefix (p s : string) : string :=
  match p, s with
  | String _ p', String _ s' => drop_prefix p' s'
  | _, _ => s
  end.

Definition unindent (m l : string) : string :=
  if startswith m l then drop_prefix m l else l.

Definition dedent (text : string) : string :=
  let ls := map (fun l => if all_blank l then EmptyString else l)
                (split (ascii_of_nat 10) text) in
  match margin_of ls None with
  | Some m => join nl (map (unindent m) ls)
  | None => join nl ls
  end.

End Textwrap.

(** ** [src/filter_and_assign.py] *)

Module FilterAndAssign.
Import Py.

(** The per-line variables of the loop body, lines 64 to 72.
    [labels] is the lower-cased text of line 72. *)
Record row : Type := mk_row {
  issue_id : string;
  title : string;
  score : string;
  comments : string;
  category : string;
  labels : string
}.

(** [result.stdout.strip().split("\n")[2:-1]], line 51. *)
Definition lines_of (captured : string) : list string :=
  slice 2 (-1) (split (ascii_of_nat 10) (strip captured)).

(** Lines 59 to 72: [None] when the line is skipped ([continue], or fewer
    than five fields).  Every index read is below [length parts] by the
    guards, so [nth]'s default is never returned. *)
Definition parse_line (line : string) : option row :=
  if is_empty (strip line) then None
  else
    let parts := split "|"%char line in
    if 5 <=? List.length parts then
      let labels_str :=
        if 6 <? List.length parts then strip (nth 6 parts "") else "" in
      Some {| issue_id := strip (nth 1 parts "");
              title := strip (take 50 (nth 2 parts ""));
              score := strip (nth 3 parts "");
              comments := strip (nth 4 parts "");
              category :=
                if 5 <? List.length parts then strip (nth 5 parts "") else "";
              labels := if is_empty labels_str then "" else lower labels_str |}
    else None.

(** Lines 78 to 82. *)
Definition rule1 (r : row) : bool :=
  contains "needs more info" (labels r)
  || contains "question" (lower (title r))
  || contains "help" (lower (title r)).

(** Line 85: [comments == "0" and score < 0.80]; [and] evaluates its
    right operand only when the left one is true, and [score] is still the
    [str] of line 66. *)
Definition rule2 (r : row) : result bool :=
  if String.eqb (comments r) "0"
  then lt (VStr (score r)) (VFloat (80 # 100))
  else Ok false.

(** Line 88. *)
Definition rule3 (r : row) : bool :=
  contains "question" (take 20 (lower (title r))).

(** Lines 75 to 90: the pair [(is_bad, reason)]. *)
Definition classify (r : row) : result (bool * string) :=
  if rule1 r then Ok (true, "Needs more info")
  else
    bind (rule2 r) (fun low =>
      if low then Ok (true, "Low score, no activity")
      else if rule3 r then Ok (true, "Likely a question")
      else Ok (false, "")).

Definition good_record : Type := string * string * string * string.
Definition bad_record : Type := string * string * string.

Record state : Type := mk_state {
  good_issues : list good_record;
  bad_issues : list bad_record;
  stdout : list string          (* the lines printed so far *)
}.

Definition good_of (r : row) : good_record :=
  (issue_id r, score r, comments r, category r).

Definition bad_of (r : row) (reason : string) : bad_record :=
  (issue_id r, score r, reason).

(** Line 96. *)
Definition good_line (g : good_record) : string :=
  let '(i, s, c, k) := g in
  ljust 50 i ++ " " ++ ljust 8 s ++ " " ++ ljust 10 c ++ " " ++ ljust 15 k.

(** Lines 92 to 96. *)
Definition file_row (r : row) (st : state) : result state :=
  bind (classify r) (fun v =>
    let '(is_bad, reason) := v in
    if is_bad
    then Ok {| good_issues := good_issues st;
               bad_issues := bad_issues st ++ [bad_of r reason];
               stdout := stdout st |}
    else Ok {| good_issues := good_issues st ++ [good_of r];
               bad_issues := bad_issues st;
               stdout := stdout st ++ [good_line (good_of r)] |}).

(** One iteration of the loop of line 58. *)
Definition body (line : string) (st : state) : result state :=
  match parse_line line with
  | None => Ok st
  | Some r => file_row r st
  end.

(** The loop: the state reached, and the exception that ended it early,
    if one did. *)
Fixpoint loop (lines : list string) (st : state) : state * option exn :=
  match lines with
  | [] => (st, None)
  | line :: rest =>
      match body line st with
      | Ok st' => loop rest st'
      | Raise e => (st, Some e)
      end
  end.

Definition str_of_nat (n : nat) : string :=
  NilEmpty.string_of_uint (Nat.to_uint n).

Definition rule80 : string := repeat_char "="%char 80.

(** Lines 45 to 48. *)
Definition banner : list string :=
  [rule80; "HIGH-SCORING ISSUES FOR POTENTIAL CONTRIBUTION"; rule80; ""].

(** Lines 52 and 53. *)
Definition table_header : list string :=
  [ljust 50 "ISSUE" ++ " " ++ ljust 8 "SCORE" ++ " " ++ ljust 10 "COMMENTS"
     ++ " " ++ ljust 15 "CATEGORY" ++ " " ++ ljust 40 "LABELS";
   repeat_char "-"%char 80].

(** Lines 98 to 103. *)
Definition counts (st : state) : list string :=
  [""; rule80;
   "GOOD ISSUES FOR CONTRIBUTION: " ++ str_of_nat (List.length (good_issues st));
   "SKIP THESE ISSUES: " ++ str_of_nat (List.length (bad_issues st));
   rule80; ""].

(** Line 107. *)
Definition skip_line (b : bad_record) : string :=
  let '(i, s, reason) := b in
  "  - " ++ i ++ " (score: " ++ s ++ "): " ++ reason.

(** Lines 105 to 107. *)
Definition skip_summary (bad : list bad_record) : list string :=
  "ISSUES TO SKIP (bad for contribution):"
    :: map skip_line (slice_to 10 bad).

(** Lines 109 to 114. *)
Definition actions : list string :=
  [""; "RECOMMENDED ACTIONS:";
   "1. Only comment on GOOD issues";
   "2. Skip issues with 'needs more info' label";
   "3. Focus on issues with clear bug/feature descriptions";
   "4. Prefer issues with some comments (indicates activity)"].

Definition initial : state :=
  {| good_issues := []; bad_issues := []; stdout := banner ++ table_header |}.

(** The script from line 45 on, given the text captured from the database
    client: everything printed, and the uncaught exception if there is
    one. *)
Definition script (captured : string) : list string * option exn :=
  match loop (lines_of captured) initial with
  | (st, Some e) => (stdout st, Some e)
  | (st, None) =>
      ((stdout st ++ counts st ++ skip_summary (bad_issues st) ++ actions)%list,
     None)
  end.

(** *** Vocabulary for the statements below *)

(** The rows the loop gets to see: one per line that is not skipped. *)
Fixpoint rows_of (lines : list string) : list row :=
  match lines with
  | [] => []
  | line :: rest =>
      match parse_line line with
      | Some r => r :: rows_of rest
      | None => rows_of rest
      end
  end.

(** The rows classified before the first one whose classification
    raises. *)
Fixpoint classified (rs : list row) : list row :=
  match rs with
  | [] => []
  | r :: rs' =>
      match classify r with
      | Ok _ => r :: classified rs'
      | Raise _ => []
      end
  end.

Definition is_good (r : row) : bool :=
  match classify r with
  | Ok (false, _) => true
  | _ => false
  end.

Definition is_skip (r : row) : bool :=
  match classify r with
  | Ok (true, _) => true
  | _ => false
  end.

Definition skip_reason (r : row) : string :=
  match classify r with
  | Ok (_, reason) => reason
  | Raise _ => ""
  end.

Definition with_score (r : row) (s : string) : row :=
  {| issue_id := issue_id r; title := title r; score := s;
     comments := comments r; category := category r; labels := labels r |}.

End FilterAndAssign.

(** ** [src/assign_best_issues.py] *)

Module AssignBestIssues.
Import Py.

(** What a process can touch: its two output streams, and a log of every
    other effect (files, network, credentials). *)
Record world : Type := mk_world {
  out : string;
  err : string;
  effects : list string
}.

Definition indent8 : string := repeat_char " "%char 8.

(** The triple-quoted literal of lines 20 to 24. *)
Definition literal : string :=
  nl ++ indent8
     ++ "Issue auto-assignment has been disabled to protect upstream projects and"
     ++ nl ++ indent8
     ++ "credentials. Replace this script with an audited workflow that requires"
     ++ nl ++ indent8
     ++ "human confirmation before reassigning issues."
     ++ nl ++ indent8.

Definition message : string := strip (Textwrap.dedent literal).

(** [main], lines 18 to 28: the world after the call and the value
    returned, which line 32 hands to [sys.exit]. *)
Definition main (w : world) : world * Z :=
  ({| out := out w; err := err w ++ message ++ nl; effects := effects w |}, 1%Z).

End AssignBestIssues.

(** ** Sample inputs *)

Module Samples.
Import Py FilterAndAssign.

(** The rows of the specification's examples. *)
Definition retry_row : row :=
  {| issue_id := "101"; title := "Add retry logic to client"; score := "0.85";
     comments := "3"; category := "feature"; labels := "bug,good-first-issue" |}.

Definition null_pointer_row : row :=
  {| issue_id := "103"; title := "Fix null pointer in parser"; score := "0.76";
     comments := "0"; category := "bug"; labels := "bug" |}.

(** The retry-logic row again, this time without comments. *)
Definition quiet_retry_row : row :=
  {| issue_id := "104"; title := "Add retry logic to client"; score := "0.85";
     comments := "0"; category := "feature"; labels := "bug,good-first-issue" |}.

Definition help_row : row :=
  {| issue_id := "102"; title := "Help needed"; score := "0.9";
     comments := "5"; category := ""; labels := "" |}.

Definition retry_line : string :=
  "| 101 | Add retry logic to client | 0.85 | 3 | feature | Bug,Good-First-Issue".

Definition help_line : string := "| 102 | Help needed | 0.9 | 5".

Definition null_pointer_line : string :=
  "| 103 | Fix null pointer in parser | 0.76 | 0 | bug | bug".

Definition needs_info_line : string :=
  "| 105 | Crash on start | 0.95 | 4 | bug | bug, Needs More Info".

Definition short_line : string := "| 1 | x".

(** Captured text: two header lines, the data lines, the row-count footer
    and the trailing newline. *)
Definition table (data : list string) (footer : string) : string :=
  join nl ("| id | title | score | comments | category | labels"
           :: "+----+-------+-------+----------+----------+--------"
           :: data ++ [footer])%list ++ nl.

Definition clean_table : string :=
  table [retry_line; ""; short_line; help_line] "(3 rows)".

Definition zero_comments_table : string :=
  table [null_pointer_line] "(1 row)".

Definition twelve_help_table : string :=
  table (repeat help_line 12) "(12 rows)".

End Samples.

(** ** Measures on text used by the statements about parsing *)

Module Measures.
Import Py FilterAndAssign.

(** How many times a character occurs. *)
Fixpoint count_char (c : ascii) (s : string) : nat :=
  match s with
  | EmptyString => 0
  | String a s' => (if Ascii.eqb a c then 1 else 0) + count_char c s'
  end.

(** Nothing but whitespace (the empty string included). *)
Fixpoint all_space (s : string) : bool :=
  match s with
  | EmptyString => true
  | String c s' => isspace c && all_space s'
  end.

(** Does not start with whitespace. *)
Definition clean_head (s : string) : bool :=
  match s with
  | EmptyString => true
  | String c _ => negb (isspace c)
  end.

Definition one_line (s : string) : Prop := count_char (ascii_of_nat 10) s = 0.

Definition yields_row (line : string) : bool :=
  match parse_line line with
  | Some _ => true
  | None => false
  end.

Definition outcome_ok {A : Type} (m : result A) : bool :=
  match m with
  | Ok _ => true
  | Raise _ => false
  end.

(** The report of a run that met no row at all. *)
Definition empty_report : list string :=
  (banner ++ table_header
     ++ [""; rule80; "GOOD ISSUES FOR CONTRIBUTION: 0"; "SKIP THESE ISSUES: 0";
         rule80; ""; "ISSUES TO SKIP (bad for contribution):"]
     ++ actions)%list.

(** What the client prints for a query: the column names, the separator
    line, the data lines and the footer. *)
Definition psql_header : string :=
  " issue_id | issue_title | score | comments | project_name | category | labels".

Definition psql_separator : string :=
  "----------+-------------+-------+----------+--------------+----------+--------".

End Measures.

(** * Properties *)

(** ** Runtime primitives *)

Module PyFacts.
Import Py.

Lemma startswith_take (p : string) :
  forall n s, startswith p (take n s) = true -> startswith p s = true.
Proof.
  induction p as [|a p IH]; intros n s H; [destruct s; reflexivity|].
  destruct n as [|n], s as [|b s]; simpl in *; try discriminate.
  apply andb_true_iff in H as [Hab Hp].
  rewrite Hab. simpl. exact (IH _ _ Hp).
Qed.

Lemma startswith_nil_r (p : string) : startswith p "" = true -> p = "".
Proof. destruct p; [reflexivity | discriminate]. Qed.

Lemma contains_nil_l (s : string) : contains "" s = true.
Proof. destruct s; reflexivity. Qed.

(** A needle found in a prefix of a string is found in the string. *)
Lemma contains_take (p : string) :
  forall s n, contains p (take n s) = true -> contains p s = true.
Proof.
  induction s as [|c s IH]; intros n H.
  - destruct n; exact H.
  - destruct n as [|n].
    + simpl in H. rewrite orb_false_r in H.
      apply startswith_nil_r in H. subst p. apply contains_nil_l.
    + change (take (S n) (String c s)) with (String c (take n s)) in H.
      cbn [contains] in H |- *.
      apply orb_true_iff in H as [H | H]; apply orb_true_iff.
      * left. exact (startswith_take p (S n) (String c s) H).
      * right. exact (IH n H).
Qed.

Lemma split_nonempty (sep : ascii) (s : string) : split sep s <> [].
Proof.
  destruct s as [|c s]; simpl; [discriminate|].
  destruct (Ascii.eqb c sep); [discriminate|].
  destruct (split sep s); discriminate.
Qed.

Lemma clamp_two (n : nat) : clamp n 2 = Nat.min 2 n.
Proof. reflexivity. Qed.

Lemma clamp_minus_one (n : nat) : clamp n (-1) = pred n.
Proof.
  unfold clamp. change (-1 <? 0)%Z with true. cbv iota. lia.
Qed.

(** [l[2:-1]] drops the first two elements and the last one. *)
Lemma slice_2_m1 {A : Type} (l : list A) :
  slice 2 (-1) l = removelast (skipn 2 l).
Proof.
  unfold slice. rewrite clamp_two, clamp_minus_one.
  rewrite removelast_firstn_len, length_skipn.
  destruct l as [|a [|b l]]; try reflexivity.
  cbn [List.length Nat.min pred]. f_equal. lia.
Qed.

Lemma length_slice_to {A : Type} (n : nat) (l : list A) :
  List.length (slice_to n l) = Nat.min n (List.length l).
Proof. apply length_firstn. Qed.

Lemma nth_error_slice_to {A : Type} (n i : nat) (l : list A) :
  nth_error (slice_to n l) i = if i <? n then nth_error l i else None.
Proof.
  unfold slice_to. apply nth_error_firstn.
Qed.

Lemma lt_str_float (s : string) (q : Q) : lt (VStr s) (VFloat q) = Raise TypeError.
Proof. reflexivity. Qed.

End PyFacts.

(** ** The classifier of [filter_and_assign.py] *)

Module ClassifierFacts.
Import Py PyFacts FilterAndAssign Samples.

(** Line 85 never yields [True]: the left operand decides between [False]
    and an exception. *)
Lemma rule2_cases (r : row) :
  rule2 r = if String.eqb (comments r) "0" then Raise TypeError else Ok false.
Proof. unfold rule2. rewrite lt_str_float. reflexivity. Qed.

Lemma rule3_within_rule1 (r : row) : rule3 r = true -> rule1 r = true.
Proof.
  unfold rule3, rule1. intros H. apply contains_take in H.
  rewrite H. apply orb_true_iff. left. apply orb_true_r.
Qed.

Lemma rule1_false_rule3_false (r : row) : rule1 r = false -> rule3 r = false.
Proof.
  intros H. destruct (rule3 r) eqn:E; [|reflexivity].
  apply rule3_within_rule1 in E. congruence.
Qed.

(** The three outcomes of lines 78 to 90. *)
Lemma classify_cases (r : row) :
  classify r =
    if rule1 r then Ok (true, "Needs more info")
    else if String.eqb (comments r) "0" then Raise TypeError
    else Ok (false, "").
Proof.
  unfold classify. destruct (rule1 r) eqn:E1; [reflexivity|].
  rewrite rule2_cases. destruct (String.eqb (comments r) "0"); [reflexivity|].
  simpl. rewrite (rule1_false_rule3_false r E1). reflexivity.
Qed.

Lemma rule1_with_score (r : row) (s : string) : rule1 (with_score r s) = rule1 r.
Proof. reflexivity. Qed.

Lemma zero_comments_raise (r : row) :
  rule1 r = false -> comments r = "0" -> classify r = Raise TypeError.
Proof.
  intros H1 Hc. rewrite classify_cases, H1, Hc. reflexivity.
Qed.

(** C1: on the specification's own low-score row (comments "0", score
    "0.76", not matched by rule 1) the classifier does not reach a verdict:
    comparing the score text with [0.80] raises [TypeError], and the same
    happens whatever the score text is. *)
Theorem low_score_row_raises :
  rule1 null_pointer_row = false
  /\ comments null_pointer_row = "0"
  /\ classify null_pointer_row = Raise TypeError
  /\ forall s, classify (with_score null_pointer_row s) = Raise TypeError.
Proof.
  split; [reflexivity|]. split; [reflexivity|]. split; [reflexivity|].
  intros s. apply zero_comments_raise; reflexivity.
Qed.

(** C2: a row whose lower-cased labels contain "needs more info", or whose
    lower-cased title contains "question" or "help", is marked skip with
    reason "Needs more info", whatever its score and comment count. *)
Theorem rule1_needs_more_info (r : row) :
  contains "needs more info" (labels r) = true
  \/ contains "question" (lower (title r)) = true
  \/ contains "help" (lower (title r)) = true ->
  forall s c,
    classify {| issue_id := issue_id r; title := title r; score := s;
                comments := c; category := category r; labels := labels r |}
    = Ok (true, "Needs more info").
Proof.
  intros H s c. unfold classify, rule1. cbn [labels title].
  destruct H as [H | [H | H]]; rewrite H; rewrite ?orb_true_r; reflexivity.
Qed.

Lemma rule1_needs_more_info_witness :
  classify help_row = Ok (true, "Needs more info")
  /\ option_map classify (parse_line needs_info_line)
     = Some (Ok (true, "Needs more info")).
Proof.
  split.
  - apply (rule1_needs_more_info help_row).
    right. right. reflexivity.
  - change (parse_line needs_info_line)
      with (Some (mk_row "105" "Crash on start" "0.95" "4" "bug"
                         "bug, needs more info")).
    exact (f_equal Some
             (rule1_needs_more_info
                (mk_row "105" "Crash on start" "" "" "bug" "bug, needs more info")
                (or_introl eq_refl) "0.95" "4")).
Defined.

(** C3: rule 3 is dead.  Whenever its test holds, so does rule 1's
    whole-title test, and no row is ever given the reason
    "Likely a question". *)
Theorem rule3_is_dead (r : row) :
  implb (rule3 r) (rule1 r) = true
  /\ forall is_bad, classify r <> Ok (is_bad, "Likely a question").
Proof.
  split.
  - destruct (rule3 r) eqn:E; [|reflexivity].
    simpl. exact (rule3_within_rule1 r E).
  - intros b. rewrite classify_cases.
    destruct (rule1 r); [discriminate|].
    destruct (String.eqb (comments r) "0"); discriminate.
Qed.

(** The fall-through of lines 92 to 96: when the three tests all come out
    false the row is marked good.  Rule 2's test comes out false only for
    comments other than "0". *)
Lemma tests_false_is_good (r : row) :
  rule1 r = false -> rule2 r = Ok false -> rule3 r = false ->
  classify r = Ok (false, "") /\ is_good r = true.
Proof.
  intros H1 H2 H3. unfold is_good, classify.
  rewrite H1, H2. simpl. rewrite H3. split; reflexivity.
Qed.

Lemma tests_false_is_good_example :
  classify retry_row = Ok (false, "") /\ is_good retry_row = true.
Proof.
  apply (tests_false_is_good retry_row); reflexivity.
Defined.

(** C6: the specification's retry-logic row (comments "3") is marked good;
    the same row with comments "0" and its score of "0.85" is matched by
    none of the three rules either (rules 1 and 3 are false, rule 2 does not
    hold), yet it is not marked good: rule 2's comparison raises
    [TypeError]. *)
Theorem unmatched_quiet_row_not_good :
  classify retry_row = Ok (false, "")
  /\ rule1 quiet_retry_row = false
  /\ rule3 quiet_retry_row = false
  /\ rule2 quiet_retry_row = Raise TypeError
  /\ classify quiet_retry_row = Raise TypeError
  /\ is_good quiet_retry_row = false.
Proof. repeat split. Qed.

(** C10: between two rows that differ in their score only, with comments
    other than "0" and no match of rule 1, the verdict and the reason are
    the same: the score is never looked at. *)
Theorem score_not_inspected (r : row) (s1 s2 : string) :
  rule1 (with_score r s1) = false ->
  rule1 (with_score r s2) = false ->
  comments r <> "0" ->
  classify (with_score r s1) = classify (with_score r s2)
  /\ classify (with_score r s1) = Ok (false, "").
Proof.
  intros H1 H2 Hc. rewrite !classify_cases, H1, H2. cbn [comments with_score].
  apply String.eqb_neq in Hc. rewrite Hc. split; reflexivity.
Qed.

Lemma score_not_inspected_witness :
  classify (with_score retry_row "0.10") = classify (with_score retry_row "n/a")
  /\ classify (with_score retry_row "0.10") = Ok (false, "").
Proof.
  apply (score_not_inspected retry_row "0.10" "n/a");
    [reflexivity | reflexivity | discriminate].
Defined.

End ClassifierFacts.

(** ** The row parser *)

Module ParserFacts.
Import Py PyFacts FilterAndAssign Samples.

Lemma length_take (n : nat) : forall s, String.length (take n s) <= n.
Proof.
  induction n as [|n IH]; intros [|c s]; simpl; try lia.
  specialize (IH s). lia.
Qed.

Lemma length_lstrip (s : string) : String.length (lstrip s) <= String.length s.
Proof.
  induction s as [|c s IH]; simpl; [lia|].
  destruct (isspace c); simpl; lia.
Qed.

Lemma length_rstrip (s : string) : String.length (rstrip s) <= String.length s.
Proof.
  induction s as [|c s IH]; simpl; [lia|].
  destruct (is_empty (rstrip s) && isspace c); simpl; lia.
Qed.

Lemma length_strip (s : string) : String.length (strip s) <= String.length s.
Proof.
  unfold strip. pose proof (length_rstrip (lstrip s)). pose proof (length_lstrip s). lia.
Qed.

Lemma lower_empty (s : string) : (if is_empty s then "" else lower s) = lower s.
Proof. destruct s; reflexivity. Qed.

(** A field read under a length guard is the field at that index. *)
Lemma guarded_field (parts : list string) (i : nat) :
  (if i <? List.length parts then strip (nth i parts "") else "")
  = match nth_error parts i with Some f => strip f | None => "" end.
Proof.
  destruct (Nat.ltb_spec i (List.length parts)) as [H | H].
  - rewrite (nth_error_nth' parts "" H). reflexivity.
  - apply nth_error_None in H. rewrite H. reflexivity.
Qed.

Lemma short_line_dropped (line : string) :
  List.length (split "|"%char line) < 5 -> parse_line line = None.
Proof.
  intros H. unfold parse_line. destruct (is_empty (strip line)); [reflexivity|].
  apply Nat.leb_gt in H. rewrite H. reflexivity.
Qed.

(** C5: the parser keeps the lines of the stripped capture other than the
    first two and the last; a blank line, or one with fewer than five
    ["|"]-separated fields, gives no row; any other line gives the row whose
    fields are read by position: id 1, title 2 (first 50 characters, then
    trimmed), score 3, comments 4, category 5 and labels 6 (lower-cased),
    the last two empty when the line is too short to have them. *)
Theorem row_parser_contract (captured line : string) :
  let parts := split "|"%char line in
  lines_of captured
    = removelast (skipn 2 (split (ascii_of_nat 10) (strip captured)))
  /\ (is_empty (strip line) = true -> parse_line line = None)
  /\ (List.length parts < 5 -> parse_line line = None)
  /\ (is_empty (strip line) = false -> 5 <= List.length parts ->
      exists f1 f2 f3 f4,
        nth_error parts 1 = Some f1 /\ nth_error parts 2 = Some f2
        /\ nth_error parts 3 = Some f3 /\ nth_error parts 4 = Some f4
        /\ String.length (strip (take 50 f2)) <= 50
        /\ parse_line line
           = Some {| issue_id := strip f1;
                     title := strip (take 50 f2);
                     score := strip f3;
                     comments := strip f4;
                     category := match nth_error parts 5 with
                                 | Some f => strip f
                                 | None => ""
                                 end;
                     labels := match nth_error parts 6 with
                               | Some f => lower (strip f)
                               | None => ""
                               end |}).
Proof.
  intros parts. split; [apply slice_2_m1|].
  split; [intros H; unfold parse_line; rewrite H; reflexivity|].
  split; [apply short_line_dropped|].
  intros Hblank Hlen.
  exists (nth 1 parts ""), (nth 2 parts ""), (nth 3 parts ""), (nth 4 parts "").
  repeat (split; [apply nth_error_nth'; lia|]).
  split.
  - pose proof (length_strip (take 50 (nth 2 parts ""))).
    pose proof (length_take 50 (nth 2 parts "")). lia.
  - unfold parse_line. fold parts. rewrite Hblank.
    apply Nat.leb_le in Hlen. rewrite Hlen.
    rewrite lower_empty, !guarded_field.
    destruct (nth_error parts 6); reflexivity.
Qed.

Lemma row_parser_contract_witness :
  parse_line retry_line = Some retry_row /\ parse_line short_line = None.
Proof.
  destruct (row_parser_contract "" retry_line) as (_ & _ & _ & Hrow).
  destruct (row_parser_contract "" short_line) as (_ & _ & Hshort & _).
  split.
  - destruct (Hrow eq_refl ltac:(vm_compute; lia))
      as (f1 & f2 & f3 & f4 & E1 & E2 & E3 & E4 & _ & E).
    vm_compute in E1, E2, E3, E4.
    injection E1 as <-. injection E2 as <-. injection E3 as <-. injection E4 as <-.
    exact E.
  - apply Hshort. vm_compute. lia.
Defined.

End ParserFacts.

(** ** The classification loop and the report *)

Module ReportFacts.
Import Py PyFacts FilterAndAssign Samples ClassifierFacts ParserFacts.

Lemma good_skip_exclusive (r : row) : is_good r && is_skip r = false.
Proof.
  unfold is_good, is_skip. destruct (classify r) as [[[|] reason]|e]; reflexivity.
Qed.

(** A row goes to exactly one of the two lists, unless classifying it
    raises. *)
Lemma file_row_cases (r : row) (st : state) :
  match classify r with
  | Ok (true, reason) =>
      file_row r st
      = Ok {| good_issues := good_issues st;
              bad_issues := bad_issues st ++ [bad_of r reason];
              stdout := stdout st |}
  | Ok (false, _) =>
      file_row r st
      = Ok {| good_issues := good_issues st ++ [good_of r];
              bad_issues := bad_issues st;
              stdout := stdout st ++ [good_line (good_of r)] |}
  | Raise e => file_row r st = Raise e
  end.
Proof.
  unfold file_row. destruct (classify r) as [[[|] reason]|e]; reflexivity.
Qed.

Lemma verdict_skip (r : row) (reason : string) :
  classify r = Ok (true, reason) -> is_skip r = true.
Proof. unfold is_skip. intros ->. reflexivity. Qed.

Lemma verdict_good (r : row) (reason : string) :
  classify r = Ok (false, reason) -> is_good r = true.
Proof. unfold is_good. intros ->. reflexivity. Qed.

Lemma verdict_skip_not_good (r : row) (reason : string) :
  classify r = Ok (true, reason) -> is_good r = false /\ is_skip r = true.
Proof. unfold is_good, is_skip. intros ->. auto. Qed.

Lemma verdict_good_not_skip (r : row) (reason : string) :
  classify r = Ok (false, reason) -> is_skip r = false /\ is_good r = true.
Proof. unfold is_good, is_skip. intros ->. auto. Qed.

Lemma verdict_reason (r : row) (b : bool) (reason : string) :
  classify r = Ok (b, reason) -> skip_reason r = reason.
Proof. unfold skip_reason. intros ->. reflexivity. Qed.

Section Loop.

Variable lines : list string.

Let rs : list row := classified (rows_of lines).

(** What the loop has done when it stops, from any starting state. *)
Lemma loop_effect :
  forall st,
    let st' := fst (loop lines st) in
    good_issues st' = (good_issues st ++ map good_of (filter is_good rs))%list
    /\ bad_issues st'
       = (bad_issues st
            ++ map (fun r => bad_of r (skip_reason r)) (filter is_skip rs))%list
    /\ stdout st'
       = (stdout st ++ map good_line (map good_of (filter is_good rs)))%list.
Proof.
  subst rs. induction lines as [|line rest IH]; intros st; cbn zeta.
  - simpl. rewrite !app_nil_r. auto.
  - cbn [loop rows_of]. unfold body. destruct (parse_line line) as [r|].
    + pose proof (file_row_cases r st) as Hrow.
      cbn [classified].
      destruct (classify r) as [[[|] reason]|e] eqn:E; rewrite Hrow.
      * destruct (IH (mk_state (good_issues st)
                               (bad_issues st ++ [bad_of r reason])
                               (stdout st))) as (Hg & Hb & Ho).
        cbn [good_issues bad_issues stdout] in Hg, Hb, Ho.
        cbn [filter]. rewrite (verdict_skip r reason E).
        rewrite (proj1 (verdict_skip_not_good r reason E)).
        cbn [map]. rewrite (verdict_reason r true reason E).
        rewrite Hg, Hb, Ho, <- app_assoc. auto.
      * destruct (IH (mk_state (good_issues st ++ [good_of r])
                               (bad_issues st)
                               (stdout st ++ [good_line (good_of r)])))
          as (Hg & Hb & Ho).
        cbn [good_issues bad_issues stdout] in Hg, Hb, Ho.
        cbn [filter]. rewrite (verdict_good r reason E).
        rewrite (proj1 (verdict_good_not_skip r reason E)).
        cbn [map]. rewrite Hg, Hb, Ho, <- !app_assoc. auto.
      * simpl. rewrite !app_nil_r. auto.
    + apply IH.
Qed.

(** The loop ends without an exception exactly when every row could be
    classified. *)
Lemma loop_completes :
  forall st, snd (loop lines st) = None <-> rs = rows_of lines.
Proof.
  subst rs. induction lines as [|line rest IH]; intros st.
  - simpl. tauto.
  - cbn [loop rows_of]. unfold body. destruct (parse_line line) as [r|].
    + pose proof (file_row_cases r st) as Hrow. cbn [classified].
      destruct (classify r) as [[[|] reason]|e] eqn:E; rewrite Hrow.
      * rewrite IH. split; [intros ->; reflexivity | intros [= H]; exact H].
      * rewrite IH. split; [intros ->; reflexivity | intros [= H]; exact H].
      * simpl. split; discriminate.
    + apply IH.
Qed.

Lemma classified_prefix : exists rest, rows_of lines = (rs ++ rest)%list.
Proof.
  subst rs. induction (rows_of lines) as [|r l [rest IH]].
  - exists []. reflexivity.
  - cbn [classified]. destruct (classify r).
    + exists rest. simpl. rewrite <- IH. reflexivity.
    + exists (r :: l). reflexivity.
Qed.

Lemma classified_partition :
  List.length (filter is_good rs) + List.length (filter is_skip rs)
  = List.length rs.
Proof.
  subst rs. induction (rows_of lines) as [|r l IH]; [reflexivity|].
  cbn [classified]. unfold is_good, is_skip in *.
  destruct (classify r) as [[[|] reason]|e] eqn:E; [| |reflexivity];
    cbn [filter]; rewrite E; simpl; lia.
Qed.

(** When the loop runs to its end, the two lists together have grown by one
    entry per parsed row. *)
Lemma loop_counts (st : state) :
  snd (loop lines st) = None ->
  List.length (good_issues (fst (loop lines st)))
  + List.length (bad_issues (fst (loop lines st)))
  = List.length (good_issues st) + List.length (bad_issues st)
    + List.length (rows_of lines).
Proof.
  intros Hdone. apply loop_completes in Hdone.
  destruct (loop_effect st) as (Hg & Hb & _).
  rewrite Hg, Hb, !length_app, !length_map.
  pose proof classified_partition. rewrite <- Hdone. lia.
Qed.

End Loop.

Lemma short_line_no_row (line : string) (rest : list string) (st : state) :
  List.length (split "|"%char line) < 5 ->
  rows_of (line :: rest) = rows_of rest
  /\ loop (line :: rest) st = loop rest st.
Proof.
  intros H. apply short_line_dropped in H.
  cbn [rows_of loop]. unfold body. rewrite H. auto.
Qed.

(** C4: on a capture whose single data row has comments "0" and is not
    matched by rule 1, the row is parsed, the loop stops on [TypeError], the
    row is in neither list and the script ends before the counts are
    printed. *)
Theorem unfiled_row_on_type_error :
  rows_of (lines_of zero_comments_table) = [null_pointer_row]
  /\ loop (lines_of zero_comments_table) initial = (initial, Some TypeError)
  /\ good_issues initial = [] /\ bad_issues initial = []
  /\ script zero_comments_table = ((banner ++ table_header)%list, Some TypeError).
Proof. vm_compute. auto. Qed.

(** C7: the good list is made of the rows classified good, in the order of
    the parsed rows, and the good rows are printed in that order right after
    the table header: the rows the loop classifies are an initial segment of
    the parsed rows (all of them when nothing raises), and the good list and
    the printed rows are that segment filtered by the verdict. *)
Theorem good_rows_keep_order (captured : string) :
  let rows := rows_of (lines_of captured) in
  let reached := classified rows in
  let st := fst (loop (lines_of captured) initial) in
  good_issues st = map good_of (filter is_good reached)
  /\ stdout st
     = (banner ++ table_header ++ map good_line (good_issues st))%list
  /\ (exists rest, rows = (reached ++ rest)%list)
  /\ (snd (loop (lines_of captured) initial) = None <-> reached = rows)
  /\ (exists tail, fst (script captured)
        = (banner ++ table_header ++ map good_line (good_issues st) ++ tail)%list).
Proof.
  cbn zeta.
  destruct (loop_effect (lines_of captured) initial) as (Hg & _ & Ho).
  cbn [good_issues stdout initial app] in Hg, Ho.
  split; [exact Hg|].
  split; [rewrite Ho, Hg, <- app_assoc; reflexivity|].
  split; [apply classified_prefix|].
  split; [apply loop_completes|].
  unfold script. rewrite Hg.
  destruct (loop (lines_of captured) initial) as [st [e|]];
    cbn [fst] in Ho |- *; rewrite Ho, <- app_assoc.
  - exists []. rewrite app_nil_r. reflexivity.
  - eexists. rewrite <- !app_assoc. reflexivity.
Qed.

Lemma good_rows_keep_order_witness :
  good_issues (fst (loop (lines_of clean_table) initial)) = [good_of retry_row]
  /\ bad_issues (fst (loop (lines_of clean_table) initial))
     = [bad_of help_row "Needs more info"].
Proof.
  split.
  - rewrite (proj1 (good_rows_keep_order clean_table)). reflexivity.
  - reflexivity.
Defined.

(** C8: the skip summary is its heading followed by one line for each of
    the first ten skipped records and nothing more, each line showing the
    id, the score and the reason; a run that reaches the summary prints it
    between the counts and the recommended actions. *)
Theorem skip_summary_capped (captured : string) (bad : list bad_record) :
  hd_error (skip_summary bad) = Some "ISSUES TO SKIP (bad for contribution):"
  /\ List.length (tl (skip_summary bad)) = Nat.min 10 (List.length bad)
  /\ List.length (tl (skip_summary bad)) <= 10
  /\ (forall i, nth_error (tl (skip_summary bad)) i
                = if i <? 10 then option_map skip_line (nth_error bad i) else None)
  /\ (forall i s reason,
        skip_line (i, s, reason) = "  - " ++ i ++ " (score: " ++ s ++ "): " ++ reason)
  /\ (forall st, loop (lines_of captured) initial = (st, None) ->
        fst (script captured)
        = (stdout st ++ counts st ++ skip_summary (bad_issues st) ++ actions)%list).
Proof.
  unfold skip_summary. cbn [hd_error tl].
  split; [reflexivity|].
  split; [rewrite length_map; apply length_slice_to|].
  split; [rewrite length_map, length_slice_to; lia|].
  split.
  - intros i. rewrite nth_error_map, nth_error_slice_to.
    destruct (i <? 10); reflexivity.
  - split; [reflexivity|].
    intros st H. unfold script. rewrite H. reflexivity.
Qed.

Lemma skip_summary_capped_witness :
  List.length (bad_issues (fst (loop (lines_of twelve_help_table) initial))) = 12
  /\ List.length
       (tl (skip_summary (bad_issues (fst (loop (lines_of twelve_help_table) initial)))))
     = 10.
Proof.
  split; [vm_compute; reflexivity|].
  rewrite (proj1 (proj2 (skip_summary_capped
    twelve_help_table
    (bad_issues (fst (loop (lines_of twelve_help_table) initial)))))).
  vm_compute. reflexivity.
Defined.

End ReportFacts.

(** ** The disabled-assignment notice *)

Module NoticeFacts.
Import Py AssignBestIssues.

(** The dedented, stripped literal: three lines, no margin, no blank line
    around them. *)
Lemma message_text :
  message
  = "Issue auto-assignment has been disabled to protect upstream projects and"
      ++ nl
      ++ "credentials. Replace this script with an audited workflow that requires"
      ++ nl
      ++ "human confirmation before reassigning issues.".
Proof. vm_compute. reflexivity. Qed.

(** C9: whatever the state of the world, [main] appends the same three-line
    warning and a newline to standard error, returns 1 (the exit status),
    and leaves standard output and everything else as they were. *)
Theorem notice_warns_and_fails (w : world) :
  let warning :=
    "Issue auto-assignment has been disabled to protect upstream projects and"
      ++ nl
      ++ "credentials. Replace this script with an audited workflow that requires"
      ++ nl
      ++ "human confirmation before reassigning issues."
      ++ nl in
  main w = ({| out := out w; err := err w ++ warning; effects := effects w |}, 1%Z)
  /\ snd (main w) = 1%Z
  /\ out (fst (main w)) = out w
  /\ effects (fst (main w)) = effects w.
Proof.
  cbn zeta. unfold main. rewrite message_text.
  split; [|auto].
  reflexivity.
Qed.

End NoticeFacts.

(** ** Splitting, joining and trimming *)

Module TextFacts.
Import Py PyFacts FilterAndAssign Measures.

Lemma split_length (sep : ascii) (s : string) :
  List.length (split sep s) = S (count_char sep s).
Proof.
  induction s as [|c s IH]; [reflexivity|].
  cbn [split count_char]. destruct (Ascii.eqb c sep).
  - cbn [List.length]. rewrite IH. reflexivity.
  - destruct (split sep s) as [|f fs].
    + discriminate IH.
    + cbn [List.length] in *. exact IH.
Qed.

Lemma join_cons_char (sep : string) (c : ascii) (f : string) (fs : list string) :
  join sep (String c f :: fs) = String c (join sep (f :: fs)).
Proof. destruct fs; reflexivity. Qed.

Lemma join_split (sep : ascii) (s : string) :
  join (String sep "") (split sep s) = s.
Proof.
  induction s as [|c s IH]; [reflexivity|].
  cbn [split]. destruct (Ascii.eqb_spec c sep) as [-> | Hne].
  - pose proof (split_nonempty sep s) as Hne.
    destruct (split sep s) as [|f fs]; [contradiction|].
    change (join (String sep "") ("" :: f :: fs))
      with (String sep (join (String sep "") (f :: fs))).
    rewrite IH. reflexivity.
  - pose proof (split_nonempty sep s) as Hnil.
    destruct (split sep s) as [|f fs]; [contradiction|].
    rewrite join_cons_char, IH. reflexivity.
Qed.

Lemma split_fields_clean (sep : ascii) (s : string) :
  Forall (fun f => count_char sep f = 0) (split sep s).
Proof.
  induction s as [|c s IH]; [repeat constructor|].
  cbn [split]. destruct (Ascii.eqb c sep) eqn:E.
  - constructor; [reflexivity | exact IH].
  - pose proof (split_nonempty sep s) as Hne.
    destruct (split sep s) as [|f fs]; [contradiction|].
    inversion IH as [|? ? Hf Hfs]; subst.
    constructor; [|exact Hfs].
    cbn [count_char]. rewrite E. exact Hf.
Qed.

Lemma split_clean (sep : ascii) (s : string) :
  count_char sep s = 0 -> split sep s = [s].
Proof.
  induction s as [|c s IH]; [reflexivity|].
  cbn [count_char split]. destruct (Ascii.eqb c sep); [discriminate|].
  intros H. rewrite (IH H). reflexivity.
Qed.

Lemma split_app_sep (sep : ascii) (p rest : string) :
  count_char sep p = 0 ->
  split sep (p ++ String sep rest) = p :: split sep rest.
Proof.
  induction p as [|c p IH]; cbn [count_char append split].
  - intros _. rewrite Ascii.eqb_refl. reflexivity.
  - destruct (Ascii.eqb c sep); [discriminate|].
    intros H. rewrite (IH H). reflexivity.
Qed.

(** Joining fields that hold no separator and splitting again gives the
    fields back. *)
Lemma split_join (sep : ascii) (ls : list string) :
  ls <> [] -> Forall (fun f => count_char sep f = 0) ls ->
  split sep (join (String sep "") ls) = ls.
Proof.
  induction ls as [|p ps IH]; [contradiction|].
  intros _ Hall. inversion Hall as [|? ? Hp Hps]; subst.
  destruct ps as [|q qs].
  - apply split_clean. exact Hp.
  - change (join (String sep "") (p :: q :: qs))
      with (p ++ String sep (join (String sep "") (q :: qs))).
    rewrite (split_app_sep sep p _ Hp), IH; [reflexivity | discriminate | exact Hps].
Qed.

Lemma count_char_app (c : ascii) (a b : string) :
  count_char c (a ++ b) = count_char c a + count_char c b.
Proof.
  induction a as [|x a IH]; [reflexivity|].
  cbn [append count_char]. rewrite IH. lia.
Qed.

(** *** Whitespace *)

Lemma lstrip_empty (s : string) : is_empty (lstrip s) = all_space s.
Proof.
  induction s as [|c s IH]; [reflexivity|].
  cbn [lstrip all_space]. destruct (isspace c); [exact IH | reflexivity].
Qed.

Lemma rstrip_empty (s : string) : is_empty (rstrip s) = all_space s.
Proof.
  induction s as [|c s IH]; [reflexivity|].
  cbn [rstrip all_space]. rewrite <- IH.
  destruct (is_empty (rstrip s)), (isspace c); reflexivity.
Qed.

Lemma all_space_lstrip (s : string) : all_space (lstrip s) = all_space s.
Proof.
  induction s as [|c s IH]; [reflexivity|].
  cbn [lstrip all_space]. destruct (isspace c) eqn:E; [exact IH|].
  cbn [all_space]. rewrite E. reflexivity.
Qed.

(** A string strips to nothing exactly when it is all whitespace. *)
Lemma strip_empty (s : string) : is_empty (strip s) = all_space s.
Proof. unfold strip. rewrite rstrip_empty. apply all_space_lstrip. Qed.

Lemma is_empty_true (s : string) : is_empty s = true -> s = "".
Proof. destruct s; [reflexivity | discriminate]. Qed.

Lemma lstrip_app (a b : string) :
  all_space a = false -> lstrip (a ++ b) = lstrip a ++ b.
Proof.
  induction a as [|c a IH]; [discriminate|].
  cbn [all_space append lstrip]. destruct (isspace c); [exact IH | reflexivity].
Qed.

Lemma all_space_app (a b : string) :
  all_space (a ++ b) = all_space a && all_space b.
Proof.
  induction a as [|c a IH]; [reflexivity|].
  cbn [append all_space]. rewrite IH. apply andb_assoc.
Qed.

Lemma rstrip_app (a b : string) :
  all_space b = false -> rstrip (a ++ b) = a ++ rstrip b.
Proof.
  intros Hb. induction a as [|c a IH]; [reflexivity|].
  cbn [append rstrip]. rewrite IH.
  assert (E : is_empty (a ++ rstrip b) = false).
  { destruct a; [|reflexivity]. cbn [append]. rewrite rstrip_empty. exact Hb. }
  rewrite E. reflexivity.
Qed.

Lemma rstrip_space (w : string) : all_space w = true -> rstrip w = "".
Proof. intros H. apply is_empty_true. rewrite rstrip_empty. exact H. Qed.

Lemma rstrip_app_space (a w : string) :
  all_space w = true -> rstrip (a ++ w) = rstrip a.
Proof.
  intros Hw. induction a as [|c a IH]; [apply rstrip_space; exact Hw|].
  cbn [append rstrip]. rewrite IH. reflexivity.
Qed.

Lemma rstrip_idem (s : string) : rstrip (rstrip s) = rstrip s.
Proof.
  induction s as [|c s IH]; [reflexivity|].
  cbn [rstrip]. destruct (is_empty (rstrip s) && isspace c) eqn:E; [reflexivity|].
  cbn [rstrip]. rewrite IH, E. reflexivity.
Qed.

Lemma clean_head_lstrip (s : string) : clean_head (lstrip s) = true.
Proof.
  induction s as [|c s IH]; [reflexivity|].
  cbn [lstrip]. destruct (isspace c) eqn:E; [exact IH|].
  cbn [clean_head]. rewrite E. reflexivity.
Qed.

Lemma clean_head_rstrip (s : string) :
  clean_head s = true -> clean_head (rstrip s) = true.
Proof.
  destruct s as [|c s]; [reflexivity|].
  cbn [rstrip]. destruct (is_empty (rstrip s) && isspace c); [reflexivity|].
  intros H; exact H.
Qed.

Lemma lstrip_clean_head (s : string) : clean_head s = true -> lstrip s = s.
Proof.
  destruct s as [|c s]; [reflexivity|].
  cbn [clean_head lstrip]. destruct (isspace c); [discriminate | reflexivity].
Qed.

(** Trimming twice is trimming once. *)
Lemma strip_idem (s : string) : strip (strip s) = strip s.
Proof.
  unfold strip.
  rewrite (lstrip_clean_head (rstrip (lstrip s))).
  - apply rstrip_idem.
  - apply clean_head_rstrip, clean_head_lstrip.
Qed.

Lemma isspace_lower_char (c : ascii) : isspace (lower_char c) = isspace c.
Proof. destruct c as [[] [] [] [] [] [] [] []]; reflexivity. Qed.

Lemma lower_char_idem (c : ascii) : lower_char (lower_char c) = lower_char c.
Proof. destruct c as [[] [] [] [] [] [] [] []]; reflexivity. Qed.

Lemma lower_idem (s : string) : lower (lower s) = lower s.
Proof.
  induction s as [|c s IH]; [reflexivity|].
  cbn [lower]. rewrite lower_char_idem, IH. reflexivity.
Qed.

Lemma lstrip_lower (s : string) : lstrip (lower s) = lower (lstrip s).
Proof.
  induction s as [|c s IH]; [reflexivity|].
  cbn [lower lstrip]. rewrite isspace_lower_char.
  destruct (isspace c); [exact IH | reflexivity].
Qed.

Lemma is_empty_lower (s : string) : is_empty (lower s) = is_empty s.
Proof. destruct s; reflexivity. Qed.

Lemma rstrip_lower (s : string) : rstrip (lower s) = lower (rstrip s).
Proof.
  induction s as [|c s IH]; [reflexivity|].
  cbn [lower rstrip]. rewrite IH, is_empty_lower, isspace_lower_char.
  destruct (is_empty (rstrip s) && isspace c); reflexivity.
Qed.

Lemma strip_lower (s : string) : strip (lower s) = lower (strip s).
Proof. unfold strip. rewrite lstrip_lower, rstrip_lower. reflexivity. Qed.

End TextFacts.

(** ** More on the row parser *)

Module LineFacts.
Import Py PyFacts FilterAndAssign Samples Measures ParserFacts TextFacts.

(** X1: splitting a line on ["|"] loses nothing: the fields joined with
    ["|"] are the line again, there is one field more than there are
    ["|"] characters, and no field holds one. *)
Theorem fields_round_trip (line : string) :
  let parts := split "|"%char line in
  join "|" parts = line
  /\ List.length parts = S (count_char "|"%char line)
  /\ Forall (fun f => count_char "|"%char f = 0) parts.
Proof.
  cbn zeta. split; [apply join_split|].
  split; [apply split_length | apply split_fields_clean].
Qed.

(** X2: a line gives a row exactly when it is not all whitespace and holds
    at least four ["|"] characters. *)
Theorem row_iff_four_pipes (line : string) :
  yields_row line
  = negb (all_space line) && (4 <=? count_char "|"%char line).
Proof.
  unfold yields_row, parse_line. rewrite strip_empty, split_length.
  destruct (all_space line); [reflexivity|].
  change (5 <=? S (count_char "|"%char line))
    with (4 <=? count_char "|"%char line).
  destruct (4 <=? count_char "|"%char line); reflexivity.
Qed.

(** X3: every field of a parsed row is trimmed (trimming it again changes
    nothing), the labels hold no upper-case letter (lower-casing them again
    changes nothing) and the title has at most 50 characters. *)
Theorem parsed_fields_normalised (line : string) (r : row) :
  parse_line line = Some r ->
  strip (issue_id r) = issue_id r
  /\ strip (title r) = title r
  /\ strip (score r) = score r
  /\ strip (comments r) = comments r
  /\ strip (category r) = category r
  /\ strip (labels r) = labels r
  /\ lower (labels r) = labels r
  /\ String.length (title r) <= 50.
Proof.
  unfold parse_line. destruct (is_empty (strip line)); [discriminate|].
  destruct (5 <=? List.length (split "|"%char line)); [|discriminate].
  pose proof (length_strip (take 50 (nth 2 (split "|"%char line) ""))) as Hs.
  pose proof (length_take 50 (nth 2 (split "|"%char line) "")) as Ht.
  remember (take 50 (nth 2 (split "|"%char line) "")) as t eqn:Et.
  clear Et. intros H.
  assert (E : r = _) by (symmetry; injection H as H; exact H).
  rewrite E. clear H E.
  cbn [issue_id title score comments category labels].
  rewrite lower_empty, !strip_idem.
  repeat (split; [reflexivity|]).
  split; [destruct (5 <? _); [apply strip_idem | reflexivity]|].
  split; [|split].
  - destruct (6 <? _); [|reflexivity].
    rewrite strip_lower, strip_idem. reflexivity.
  - apply lower_idem.
  - lia.
Qed.

Lemma parsed_fields_normalised_witness :
  lower (labels retry_row) = labels retry_row
  /\ strip (title retry_row) = title retry_row.
Proof.
  destruct (parsed_fields_normalised retry_line retry_row eq_refl)
    as (_ & Ht & _ & _ & _ & _ & Hl & _).
  split; [exact Hl | exact Ht].
Defined.

End LineFacts.

(** ** From the captured text to the data lines *)

Module CaptureFacts.
Import Py PyFacts FilterAndAssign Samples Measures ParserFacts TextFacts.

Lemma app_assoc_s (a b c : string) : (a ++ b) ++ c = a ++ b ++ c.
Proof. induction a as [|x a IH]; [reflexivity|]. cbn [append]. rewrite IH. reflexivity. Qed.

Lemma join_cons (sep p q : string) (qs : list string) :
  join sep (p :: q :: qs) = p ++ sep ++ join sep (q :: qs).
Proof. reflexivity. Qed.

(** All of a joined list but its last element. *)
Lemma join_snoc (sep : string) (mid : list string) :
  exists front, forall z, join sep (mid ++ [z]) = front ++ z.
Proof.
  induction mid as [|m mid [front IH]].
  - exists "". reflexivity.
  - exists (m ++ sep ++ front). intros z.
    cbn [app]. destruct (mid ++ [z])%list as [|q qs] eqn:E.
    + destruct mid; discriminate E.
    + rewrite join_cons, <- E, IH, !app_assoc_s. reflexivity.
Qed.

Lemma count_char_lstrip (c : ascii) (s : string) :
  count_char c (lstrip s) <= count_char c s.
Proof.
  induction s as [|a s IH]; [reflexivity|].
  cbn [lstrip]. destruct (isspace a); [|reflexivity].
  cbn [count_char]. lia.
Qed.

Lemma count_char_rstrip (c : ascii) (s : string) :
  count_char c (rstrip s) <= count_char c s.
Proof.
  induction s as [|a s IH]; [reflexivity|].
  cbn [rstrip]. destruct (is_empty (rstrip s) && isspace a); cbn [count_char]; lia.
Qed.

(** Trimming a text whose first and last lines are not blank trims the
    first line on the left, the last one on the right, and nothing else. *)
Lemma strip_joined (a z w : string) (mid : list string) :
  all_space a = false -> all_space z = false -> all_space w = true ->
  strip (join nl (a :: mid ++ [z]) ++ w)
  = join nl (lstrip a :: mid ++ [rstrip z]).
Proof.
  intros Ha Hz Hw. destruct (join_snoc nl mid) as [front Hfront].
  assert (Hjoin : forall x y,
             join nl (x :: mid ++ [y]) = x ++ nl ++ front ++ y).
  { intros x y. destruct (mid ++ [y])%list as [|q qs] eqn:E.
    - destruct mid; discriminate E.
    - rewrite join_cons, <- E, Hfront. reflexivity. }
  rewrite !Hjoin. unfold strip.
  rewrite !app_assoc_s, (lstrip_app a _ Ha).
  rewrite <- !app_assoc_s.
  rewrite (app_assoc_s _ z w), rstrip_app.
  - rewrite (rstrip_app_space z w Hw). reflexivity.
  - rewrite all_space_app, Hz. reflexivity.
Qed.

Lemma lines_of_count (captured : string) :
  List.length (lines_of captured)
  = count_char (ascii_of_nat 10) (strip captured) - 2.
Proof.
  unfold lines_of. rewrite slice_2_m1, removelast_firstn_len, length_firstn.
  rewrite length_skipn, split_length. lia.
Qed.

(** X4: for a capture made of two header lines, data lines and a footer,
    joined by newlines and followed by any whitespace, the loop is given
    exactly the data lines, provided no line holds a newline and neither the
    first header line nor the footer is blank. *)
Theorem data_lines_of_table
  (h1 h2 footer trailing : string) (data : list string) :
  Forall one_line (h1 :: h2 :: data ++ [footer]) ->
  all_space h1 = false -> all_space footer = false ->
  all_space trailing = true ->
  lines_of (join nl (h1 :: h2 :: data ++ [footer]) ++ trailing) = data.
Proof.
  intros Hlines Hh1 Hfooter Htrail. unfold lines_of.
  change (h1 :: h2 :: data ++ [footer])%list
    with (h1 :: (h2 :: data) ++ [footer])%list.
  rewrite (strip_joined h1 footer trailing (h2 :: data) Hh1 Hfooter Htrail).
  change nl with (String (ascii_of_nat 10) "").
  rewrite split_join.
  - rewrite slice_2_m1. cbn [skipn app]. apply removelast_last.
  - discriminate.
  - inversion Hlines as [|? ? H1 Hrest]; subst.
    constructor.
    + pose proof (count_char_lstrip (ascii_of_nat 10) h1).
      unfold one_line in H1. lia.
    + cbn [app] in *. inversion Hrest as [|? ? H2 Htail]; subst.
      constructor; [exact H2|].
      apply Forall_app in Htail as [Hdata Hf]. apply Forall_app. split; [exact Hdata|].
      inversion Hf as [|? ? Hz _]; subst. constructor; [|constructor].
      pose proof (count_char_rstrip (ascii_of_nat 10) footer).
      unfold one_line in Hz. lia.
Qed.

Lemma data_lines_of_table_witness :
  lines_of (join nl (psql_header :: psql_separator
                       :: [retry_line; help_line] ++ ["(2 rows)"]) ++ nl)
  = [retry_line; help_line].
Proof.
  apply (data_lines_of_table psql_header psql_separator "(2 rows)" nl
                             [retry_line; help_line]).
  - repeat constructor.
  - reflexivity.
  - reflexivity.
  - reflexivity.
Defined.

(** X5: a capture whose trimmed text has at most three lines (an empty
    capture among them) gives no data line, and the script prints the report
    of an empty result: no row, both counts 0, no skip entry. *)
Theorem short_capture_empty_report (captured : string) :
  count_char (ascii_of_nat 10) (strip captured) <= 2 ->
  lines_of captured = [] /\ script captured = (empty_report, None).
Proof.
  intros H.
  assert (E : lines_of captured = []).
  { apply length_zero_iff_nil. rewrite lines_of_count. lia. }
  split; [exact E|]. unfold script. rewrite E. reflexivity.
Qed.

Lemma short_capture_empty_report_witness :
  script "" = (empty_report, None)
  /\ script "psql: error: connection refused" = (empty_report, None).
Proof.
  split.
  - apply (short_capture_empty_report ""). vm_compute. lia.
  - apply (short_capture_empty_report "psql: error: connection refused").
    vm_compute. lia.
Defined.

End CaptureFacts.

(** ** More on the classifier *)

Module VerdictFacts.
Import Py PyFacts FilterAndAssign Samples Measures ClassifierFacts.

(** X6: the classifier has three outcomes and no other: skip with
    "Needs more info" exactly when rule 1 matches, [TypeError] exactly when
    rule 1 does not match and comments are "0", good exactly when rule 1
    does not match and comments are not "0".  The reason
    "Low score, no activity" is never given. *)
Theorem classify_outcomes (r : row) :
  (classify r = Ok (true, "Needs more info") <-> rule1 r = true)
  /\ (classify r = Raise TypeError <-> rule1 r = false /\ comments r = "0")
  /\ (classify r = Ok (false, "") <-> rule1 r = false /\ comments r <> "0")
  /\ (forall is_bad, classify r <> Ok (is_bad, "Low score, no activity")).
Proof.
  rewrite classify_cases.
  destruct (rule1 r); destruct (String.eqb_spec (comments r) "0") as [E | E];
    repeat split; intros; try discriminate; try tauto;
    match goal with H : _ /\ _ |- _ => destruct H; try discriminate; try contradiction end.
Qed.

(** X7: the outcome depends on the lower-cased title, the comments and the
    labels only: rows that agree on these get the same outcome, whatever
    their ids, scores and categories. *)
Theorem outcome_ignores_id_score_category (r1 r2 : row) :
  lower (title r1) = lower (title r2) ->
  comments r1 = comments r2 ->
  labels r1 = labels r2 ->
  classify r1 = classify r2.
Proof.
  intros Ht Hc Hl. rewrite !classify_cases. unfold rule1.
  rewrite Ht, Hc, Hl. reflexivity.
Qed.

Lemma outcome_ignores_id_score_category_witness :
  classify (mk_row "1" "HELP wanted" "0.99" "7" "docs" "")
  = classify (mk_row "2" "help Wanted" "zero" "7" "" "").
Proof.
  apply outcome_ignores_id_score_category; reflexivity.
Defined.

End VerdictFacts.

(** ** More on the loop and the report *)

Module RunFacts.
Import Py PyFacts FilterAndAssign Samples Measures ClassifierFacts ParserFacts.
Import ReportFacts TextFacts CaptureFacts.

Lemma is_skip_rule1 (r : row) : is_skip r = rule1 r.
Proof.
  unfold is_skip. rewrite classify_cases.
  destruct (rule1 r); [reflexivity|].
  destruct (String.eqb (comments r) "0"); reflexivity.
Qed.

Lemma skip_reason_rule1 (r : row) :
  rule1 r = true -> skip_reason r = "Needs more info".
Proof. intros H. unfold skip_reason. rewrite classify_cases, H. reflexivity. Qed.

Lemma is_good_cases (r : row) :
  is_good r = negb (rule1 r) && negb (String.eqb (comments r) "0").
Proof.
  unfold is_good. rewrite classify_cases.
  destruct (rule1 r); [reflexivity|].
  destruct (String.eqb (comments r) "0"); reflexivity.
Qed.

Lemma classified_all (rs : list row) :
  classified rs = rs
  <-> Forall (fun r => rule1 r = true \/ comments r <> "0") rs.
Proof.
  induction rs as [|r rs IH]; [split; [constructor | reflexivity]|].
  cbn [classified]. rewrite classify_cases.
  destruct (rule1 r) eqn:E1.
  - split.
    + intros [= H]. constructor; [left; exact E1 | apply IH; exact H].
    + intros H. inversion H; subst. f_equal. apply IH. assumption.
  - destruct (String.eqb_spec (comments r) "0") as [E | E].
    + split; [discriminate|]. intros H. inversion H as [|? ? [H1 | H1] _]; subst.
      * congruence.
      * contradiction.
    + split.
      * intros [= H]. constructor; [right; exact E | apply IH; exact H].
      * intros H. inversion H; subst. f_equal. apply IH. assumption.
Qed.

Lemma script_status (captured : string) :
  snd (script captured) = snd (loop (lines_of captured) initial).
Proof.
  unfold script. destruct (loop (lines_of captured) initial) as [st [e|]]; reflexivity.
Qed.

Lemma rows_of_length (lines : list string) :
  List.length (rows_of lines) <= List.length lines.
Proof.
  induction lines as [|l lines IH]; [reflexivity|].
  cbn [rows_of]. destruct (parse_line l); cbn [List.length]; lia.
Qed.

Lemma good_filter (rs : list row) :
  filter is_good (classified rs)
  = filter (fun r => negb (rule1 r)) (classified rs).
Proof.
  induction rs as [|r rs IH]; [reflexivity|].
  cbn [classified]. rewrite classify_cases.
  destruct (rule1 r) eqn:E1.
  - cbn [filter]. rewrite is_good_cases, E1. exact IH.
  - destruct (String.eqb (comments r) "0") eqn:E0; [reflexivity|].
    cbn [filter]. rewrite is_good_cases, E1, E0. cbn [negb andb].
    rewrite IH. reflexivity.
Qed.

(** X8: the script runs to its end exactly when every parsed row either
    matches rule 1 or has comments other than "0"; a single parsed row with
    comments "0" that rule 1 does not match stops it. *)
Theorem completes_iff_no_quiet_row (captured : string) :
  snd (script captured) = None
  <-> Forall (fun r => rule1 r = true \/ comments r <> "0")
             (rows_of (lines_of captured)).
Proof.
  rewrite script_status, loop_completes. apply classified_all.
Qed.

(** X9: when the script runs to its end, the two counts it prints add up to
    the number of parsed rows, and the report is the banner, the table
    header, the good rows, the counts, the skip summary and the recommended
    actions, in that order. *)
Theorem completed_counts_add_up (captured : string) :
  snd (script captured) = None ->
  let st := fst (loop (lines_of captured) initial) in
  List.length (good_issues st) + List.length (bad_issues st)
  = List.length (rows_of (lines_of captured))
  /\ fst (script captured)
     = (banner ++ table_header ++ map good_line (good_issues st)
          ++ counts st ++ skip_summary (bad_issues st) ++ actions)%list.
Proof.
  intros Hdone. cbn zeta. rewrite script_status in Hdone.
  split; [exact (loop_counts (lines_of captured) initial Hdone)|].
  destruct (loop_effect (lines_of captured) initial) as (Hg & _ & Ho).
  cbn [good_issues stdout initial app] in Hg, Ho.
  unfold script.
  destruct (loop (lines_of captured) initial) as [st [e|]]; [discriminate|].
  cbn [fst] in Hg, Ho |- *. rewrite Ho, Hg, <- !app_assoc. reflexivity.
Qed.

Lemma completed_counts_add_up_witness :
  List.length (good_issues (fst (loop (lines_of clean_table) initial)))
  + List.length (bad_issues (fst (loop (lines_of clean_table) initial)))
  = 2.
Proof.
  rewrite (proj1 (completed_counts_add_up clean_table eq_refl)).
  reflexivity.
Defined.

(** X10: in every run, stopped or not, the good and the skipped records
    together are never more than the parsed rows, these never more than the
    data lines, and the data lines are two fewer than the newlines of the
    trimmed capture. *)
Theorem never_more_records_than_lines (captured : string) :
  let st := fst (loop (lines_of captured) initial) in
  List.length (good_issues st) + List.length (bad_issues st)
  <= List.length (rows_of (lines_of captured))
  /\ List.length (rows_of (lines_of captured))
     <= List.length (lines_of captured)
  /\ List.length (lines_of captured)
     = count_char (ascii_of_nat 10) (strip captured) - 2.
Proof.
  cbn zeta.
  destruct (loop_effect (lines_of captured) initial) as (Hg & Hb & _).
  cbn [good_issues bad_issues initial app] in Hg, Hb.
  split; [|split; [apply rows_of_length | apply lines_of_count]].
  rewrite Hg, Hb, !length_map, classified_partition.
  destruct (classified_prefix (lines_of captured)) as [rest E].
  rewrite E at 2. rewrite length_app. lia.
Qed.

(** X11: the skipped records are the rows matched by rule 1 among those the
    loop classified, in input order, each with its id, its score and the
    reason "Needs more info": no other reason reaches the report. *)
Theorem skipped_records_in_order (captured : string) :
  bad_issues (fst (loop (lines_of captured) initial))
  = map (fun r => (issue_id r, score r, "Needs more info"))
        (filter rule1 (classified (rows_of (lines_of captured)))).
Proof.
  destruct (loop_effect (lines_of captured) initial) as (_ & Hb & _).
  cbn [bad_issues initial app] in Hb. rewrite Hb.
  rewrite (filter_ext _ _ is_skip_rule1).
  apply map_ext_in. intros r Hr. apply filter_In in Hr as [_ Hr].
  unfold bad_of. rewrite (skip_reason_rule1 r Hr). reflexivity.
Qed.

(** X12: no good record has comments "0" and none comes from a row matched
    by rule 1: the good records are the classified rows that rule 1 does not
    match, in input order. *)
Theorem good_records_have_comments (captured : string) :
  let reached := classified (rows_of (lines_of captured)) in
  let st := fst (loop (lines_of captured) initial) in
  good_issues st = map good_of (filter (fun r => negb (rule1 r)) reached)
  /\ Forall (fun g : good_record => let '(_, _, c, _) := g in c <> "0")
            (good_issues st).
Proof.
  cbn zeta.
  destruct (loop_effect (lines_of captured) initial) as (Hg & _ & _).
  cbn [good_issues initial app] in Hg. rewrite Hg. split.
  - f_equal. apply good_filter.
  - apply Forall_forall. intros g Hg'.
    apply in_map_iff in Hg' as (r & <- & Hr).
    apply filter_In in Hr as [_ Hr]. rewrite is_good_cases in Hr.
    apply andb_true_iff in Hr as [_ Hr]. unfold good_of.
    apply negb_true_iff, String.eqb_neq in Hr. exact Hr.
Qed.

End RunFacts.

(** ** The layout of the printed rows *)

Module FormatFacts.
Import Py PyFacts FilterAndAssign Samples Measures CaptureFacts.








End FormatFacts.
